(** * pyson-js: a shallow embedding of [index.js]

    The module defines three classes ([Type], [Value], [NamedValue]) and the
    functions [parsePysonEntry], [pysonToList], [isValidPysonEntry] and
    [isValidPyson].  Every JavaScript function becomes a Rocq function into
    the [completion] monad below: a call either returns or throws.  Engine
    behaviour the source relies on (string [split] with a limit, array
    destructuring, assignment to a [const] binding, calling something that is
    not a function, reading a property of [undefined], own properties
    shadowing prototype methods) is written out where the source uses it. *)

From Stdlib Require Import String Ascii List ZArith Bool Lia.
From Stdlib Require Import SpecFloat DecimalString.
Import ListNotations.
Local Open Scope string_scope.

(** ** Completions *)

(** What the engine itself throws in the code paths of [index.js]. *)
Inductive type_error : Type :=
| AssignmentToConstant (binding : string)
    (* TypeError: Assignment to constant variable. *)
| NotAFunction (callee : string)
    (* TypeError: <callee> is not a function *)
| PropertyOfUndefined (property : string).
    (* TypeError: Cannot read properties of undefined (reading '<property>') *)

(** Thrown values: [new Error(msg)] at a throw site of the source, or a
    [TypeError] raised by the engine. *)
Inductive exn : Type :=
| Error (message : string)
| TypeError (why : type_error).

Inductive completion (A : Type) : Type :=
| Return (a : A)
| Throw (e : exn).
Arguments Return {A} a.
Arguments Throw {A} e.

Definition bind {A B} (c : completion A) (k : A -> completion B) : completion B :=
  match c with
  | Return a => k a
  | Throw e => Throw e
  end.

Notation "x <- c ;; k" := (bind c (fun x => k))
  (at level 61, c at next level, right associativity).
Notation "' pat <- c ;; k" := (bind c (fun x => let pat := x in k))
  (at level 61, pat pattern, c at next level, right associativity).

Definition returns {A} (c : completion A) : bool :=
  match c with Return _ => true | Throw _ => false end.

(** [Array.prototype.map] with a callback that may throw: elements are
    visited in order and the first throw aborts the whole call. *)
Fixpoint mapM {A B} (f : A -> completion B) (l : list A) : completion (list B) :=
  match l with
  | [] => Return []
  | a :: l' => b <- f a ;; bs <- mapM f l' ;; Return (b :: bs)
  end.

(** ** Strings

    A JavaScript string is modelled by a Rocq [string]; a character stands
    for one code unit in the range 0..255. *)

Definition LF : string := String "010"%char EmptyString.

(** [s.startsWith(p)] *)
Fixpoint starts_with (s p : string) {struct p} : bool :=
  match p with
  | EmptyString => true
  | String c p' =>
      match s with
      | EmptyString => false
      | String d s' => Ascii.eqb c d && starts_with s' p'
      end
  end.

(** [s.includes(needle)] *)
Fixpoint includes (s needle : string) : bool :=
  starts_with s needle ||
  match s with
  | EmptyString => false
  | String _ s' => includes s' needle
  end.

(** [s.split(sep)] for a non-empty separator (the source splits on the
    colon, on the list delimiter and on the line feed only).  [skip] counts the code units of a matched
    separator still to be passed over; [acc] is the piece being read. *)
Fixpoint split_from (sep : string) (skip : nat) (acc s : string) : list string :=
  match s with
  | EmptyString => [acc]
  | String c s' =>
      match skip with
      | S k => split_from sep k acc s'
      | O =>
          if starts_with s sep
          then acc :: split_from sep (String.length sep - 1) EmptyString s'
          else split_from sep 0 (acc ++ String c EmptyString) s'
      end
  end.

Definition split (s sep : string) : list string := split_from sep 0 EmptyString s.

(** [s.split(sep, limit)]: the array of [s.split(sep)] cut after [limit]
    entries; the text after them is not part of the result. *)
Definition split_limit (s sep : string) (limit : nat) : list string :=
  firstn limit (split s sep).

(** [array.join(sep)] on an array of strings. *)
Fixpoint join (sep : string) (l : list string) : string :=
  match l with
  | [] => EmptyString
  | [x] => x
  | x :: l' => x ++ sep ++ join sep l'
  end.

(** ** Numbers

    A JavaScript number is an IEEE 754 binary64 value. *)

Definition number : Type := spec_float.

Definition NaN : number := S754_nan.
Definition Infinity : number := S754_infinity false.
Definition NegInfinity : number := S754_infinity true.

(** The number denoted by the mathematical value [m * 2^e], rounded to
    nearest, ties to even. *)
Definition number_of (m e : Z) : number := binary_normalize 53 1024 m e false.

(** [Number.isInteger(x)]: [x] is finite and has no fractional part. *)
Definition Number_isInteger (x : number) : bool :=
  match x with
  | S754_zero _ => true
  | S754_finite _ m e => (0 <=? e)%Z || (Z.pos m mod 2 ^ (- e) =? 0)%Z
  | S754_infinity _ | S754_nan => false
  end.


Definition number_eqb (x y : number) : bool :=
  match x, y with
  | S754_zero s, S754_zero s' => Bool.eqb s s'
  | S754_infinity s, S754_infinity s' => Bool.eqb s s'
  | S754_nan, S754_nan => true
  | S754_finite s m e, S754_finite s' m' e' =>
      Bool.eqb s s' && (m =? m')%positive && (e =? e')%Z
  | _, _ => false
  end.

(** The number nearest to [m * 10^e], ties to even, with the sign [neg]:
    the conversion the engine applies to a decimal numeral.  A negative
    power of ten is divided out with enough quotient bits for the remainder
    to decide the rounding. *)
Definition number_of_decimal (neg : bool) (m : N) (e : Z) : number :=
  match m with
  | N0 => S754_zero neg
  | Npos p =>
      if (0 <=? e)%Z
      then binary_round 53 1024 neg (p * Z.to_pos (10 ^ e)) 0
      else
        let d := (10 ^ (- e))%Z in
        let s := Z.max 0 (64 + Z.log2 d - Z.log2 (Z.pos p)) in
        let q := (Z.pos p * 2 ^ s / d)%Z in
        let r := ((Z.pos p * 2 ^ s) mod d)%Z in
        let l := if (r =? 0)%Z then loc_Exact else loc_Inexact (2 * r ?= d)%Z in
        binary_round_aux 53 1024 neg q (- s) l
  end.

(** *** Numerals in strings *)

Definition code (c : ascii) : N := N_of_ascii c.

(** White space and line terminators among the code units 0..255. *)
Definition is_whitespace (c : ascii) : bool :=
  existsb (N.eqb (code c)) [9; 10; 11; 12; 13; 32; 160]%N.

Fixpoint trim_start (s : string) : string :=
  match s with
  | String c s' => if is_whitespace c then trim_start s' else s
  | EmptyString => s
  end.

(** The value of a digit in a radix up to 36. *)
Definition digit_value (c : ascii) : option N :=
  let n := code c in
  if (48 <=? n)%N && (n <=? 57)%N then Some (n - 48)%N
  else if (97 <=? n)%N && (n <=? 122)%N then Some (n - 87)%N
  else if (65 <=? n)%N && (n <=? 90)%N then Some (n - 55)%N
  else None.

Definition is_digit (radix : N) (c : ascii) : bool :=
  match digit_value c with
  | Some d => (d <? radix)%N
  | None => false
  end.

(** The longest prefix of digits of the radix, and what follows it. *)
Fixpoint span_digits (radix : N) (s : string) : string * string :=
  match s with
  | String c s' =>
      if is_digit radix c
      then let '(ds, rest) := span_digits radix s' in (String c ds, rest)
      else (EmptyString, s)
  | EmptyString => (EmptyString, EmptyString)
  end.

(** The integer a string of digits denotes, read after [acc]. *)
Fixpoint value_of_digits (radix : N) (acc : N) (ds : string) : N :=
  match ds with
  | String c ds' =>
      match digit_value c with
      | Some d => value_of_digits radix (acc * radix + d) ds'
      | None => acc
      end
  | EmptyString => acc
  end.

(** An optional sign: whether it is a minus, and what follows it. *)
Definition take_sign (s : string) : bool * string :=
  match s with
  | String "-" s' => (true, s')
  | String "+" s' => (false, s')
  | _ => (false, s)
  end.

(** [parseInt(string, radix)] on a string.  The integer read is converted
    exactly (an engine may approximate past the twentieth digit). *)
Definition parseInt (string : string) (radix : Z) : number :=
  let '(neg, s) := take_sign (trim_start string) in
  if negb (radix =? 0)%Z && ((radix <? 2)%Z || (36 <? radix)%Z) then NaN
  else
    let hex := ((radix =? 0)%Z || (radix =? 16)%Z) &&
               (starts_with s "0x" || starts_with s "0X") in
    let r := if hex then 16%N else if (radix =? 0)%Z then 10%N else Z.to_N radix in
    let s := if hex then substring 2 (String.length s - 2) s else s in
    let '(ds, _) := span_digits r s in
    match ds with
    | EmptyString => NaN
    | _ => number_of_decimal neg (value_of_digits r 0 ds) 0
    end.

(** The exponent part of a decimal literal, when one is there: the letter,
    an optional sign and at least one digit. *)
Definition exponent_part (s : string) : Z :=
  match s with
  | String c s' =>
      if (code c =? 101)%N || (code c =? 69)%N then
        let '(neg, s'') := take_sign s' in
        let '(ds, _) := span_digits 10 s'' in
        match ds with
        | EmptyString => 0%Z
        | _ => let v := Z.of_N (value_of_digits 10 0 ds) in if neg then (- v)%Z else v
        end
      else 0%Z
  | EmptyString => 0%Z
  end.

(** [parseFloat(string)] on a string: the longest prefix that is a decimal
    literal, and [NaN] when there is none. *)
Definition parseFloat (string : string) : number :=
  let '(neg, s) := take_sign (trim_start string) in
  if starts_with s "Infinity" then S754_infinity neg
  else
    let '(int, rest) := span_digits 10 s in
    let '(frac, rest') :=
      match rest with
      | String "." r => span_digits 10 r
      | _ => (EmptyString, rest)
      end in
    match int, frac with
    | EmptyString, EmptyString => NaN
    | _, _ =>
        number_of_decimal neg (value_of_digits 10 0 (int ++ frac))
          (exponent_part rest' - Z.of_nat (String.length frac))
    end.

(** *** Numbers to strings *)

Definition decimal (n : N) : string := NilEmpty.string_of_uint (N.to_uint n).

Definition zeros (n : Z) : string := String.concat "" (repeat "0" (Z.to_nat n)).

(** [x < 10^n] for the positive rational [x = p / q]. *)
Definition below_pow10 (p q n : Z) : bool :=
  (p * 10 ^ Z.max 0 (- n) <? q * 10 ^ Z.max 0 n)%Z.

Fixpoint first_pow10_above (fuel : nat) (p q n : Z) : Z :=
  match fuel with
  | O => n
  | S fuel' => if below_pow10 p q n then n else first_pow10_above fuel' p q (n + 1)
  end.

(** The [n] with [10^(n-1) <= p / q < 10^n]. *)
Definition decimal_exponent (p q : Z) : Z :=
  let a := (Z.log2 p - Z.log2 q)%Z in
  first_pow10_above 8 p q (a * 30103 / 100000 - 2).

(** The digits of a finite positive number [x = p / q]: the least [k] and
    the integers [s], [n] with [10^(k-1) <= s < 10^k] such that
    [s * 10^(n-k)] converts back to [x]; of two such [s] the nearer to [x].
    The search runs over [k = 1, 2, ...]; seventeen digits always suffice. *)
Fixpoint shortest_digits (fuel : nat) (x : number) (p q n k : Z) : N * Z * Z :=
  let a := (p * 10 ^ Z.max 0 (k - n))%Z in
  let b := (q * 10 ^ Z.max 0 (n - k))%Z in
  let lo := (a / b)%Z in
  let hi := (lo + 1)%Z in
  let back s := number_eqb (number_of_decimal false (Z.to_N s) (n - k)) x in
  let settle s := if (s =? 10 ^ k)%Z then (Z.to_N (10 ^ (k - 1)), (n + 1)%Z, k)
                  else (Z.to_N s, n, k) in
  let lo_first :=
    match (2 * (a mod b) ?= b)%Z with
    | Lt => true
    | Eq => Z.even lo
    | Gt => false
    end in
  let '(c1, c2) := if lo_first then (lo, hi) else (hi, lo) in
  match fuel with
  | O => settle c1
  | S fuel' =>
      if back c1 then settle c1
      else if back c2 then settle c2
      else shortest_digits fuel' x p q n (k + 1)
  end.

(** [Number::toString(x)] in radix ten, the conversion a template literal
    applies to a number. *)
Definition NumberToString (x : number) : string :=
  match x with
  | S754_nan => "NaN"
  | S754_zero _ => "0"
  | S754_infinity neg => (if neg then "-" else "") ++ "Infinity"
  | S754_finite neg m e =>
      let p := if (0 <=? e)%Z then (Z.pos m * 2 ^ e)%Z else Z.pos m in
      let q := if (0 <=? e)%Z then 1%Z else (2 ^ (- e))%Z in
      let x' := binary_round 53 1024 false m e in
      let '(s, n, k) := shortest_digits 16 x' p q (decimal_exponent p q) 1 in
      let ds := decimal s in
      let k' := Z.to_nat k in
      (if neg then "-" else "") ++
      if (k <=? n)%Z && (n <=? 21)%Z then ds ++ zeros (n - k)
      else if (0 <? n)%Z && (n <=? 21)%Z then
        substring 0 (Z.to_nat n) ds ++ "." ++ substring (Z.to_nat n) (k' - Z.to_nat n) ds
      else if (-6 <? n)%Z && (n <=? 0)%Z then "0." ++ zeros (- n) ++ ds
      else
        let ex := (n - 1)%Z in
        let tail := (if (ex <? 0)%Z then "e-" else "e+") ++ decimal (Z.to_N (Z.abs ex)) in
        if (k =? 1)%Z then ds ++ tail
        else substring 0 1 ds ++ "." ++ substring 1 (k' - 1) ds ++ tail
  end.

(** ** Values of the language *)

(** [class Type]: the one own property is the tag. *)
Module Type_.
Record t : Type := mk { type : string }.

(** [constructor(type)] *)
Definition new (type : string) : completion t :=
  if negb (existsb (String.eqb type) ["int"; "float"; "str"; "list"])
  then Throw (Error ("Invalid type: " ++ type))
  else Return (mk type).

(** [toString()] *)
Definition toString (this : t) : string := type this.
End Type_.

(** The values that reach the code: primitives, arrays, instances of
    [class Value] (with their two own properties) and plain objects.
    Arrays are dense; functions are not among the values passed around. *)
#[local] Set Warnings "-register-all".
Inductive jsval : Type :=
| JUndefined
| JNull
| JBool (b : bool)
| JNumber (n : number)
| JString (s : string)
| JArray (items : list jsval)
| JValue (value : jsval) (type : Type_.t)
| JObject.
#[local] Set Warnings "register-all".

(** [typeof x] *)
Definition typeof (x : jsval) : string :=
  match x with
  | JUndefined => "undefined"
  | JBool _ => "boolean"
  | JNumber _ => "number"
  | JString _ => "string"
  | JNull | JArray _ | JValue _ _ | JObject => "object"
  end.

(** [Array.isArray(x)] *)
Definition Array_isArray (x : jsval) : bool :=
  match x with JArray _ => true | _ => false end.

(** The list delimiter of the format. *)
Definition DELIM : string := "(*)".

(** The callee of [Value.pysonStr] on a list: the method [join] looked up on
    the delimiter string.  Strings have no such method. *)
Definition DELIM_join : string := "`" ++ DELIM ++ "`.join".

(** [ToString(x)], the conversion a template literal applies to each of its
    substitutions.  An array converts as [join(",")] does, an instance of
    [Value] through its [toString()], that is [pysonStr()]. *)
Fixpoint ToString (x : jsval) : completion string :=
  match x with
  | JUndefined => Return "undefined"
  | JNull => Return "null"
  | JBool b => Return (if b then "true" else "false")
  | JNumber n => Return (NumberToString n)
  | JString s => Return s
  | JArray items =>
      let fix each (l : list jsval) : completion (list string) :=
        match l with
        | [] => Return []
        | y :: l' =>
            s <- match y with
                 | JUndefined | JNull => Return EmptyString
                 | _ => ToString y
                 end ;;
            ss <- each l' ;;
            Return (s :: ss)
        end in
      ss <- each items ;; Return (join "," ss)
  | JValue value type =>
      if Array_isArray value
      then Throw (TypeError (NotAFunction DELIM_join))
      else s <- ToString value ;; Return (Type_.toString type ++ ":" ++ s)
  | JObject => Return "[object Object]"
  end.

(** [class Value] *)
Module Value.
(** The own properties [value] and [type] set by the constructor.  They
    shadow the prototype methods [value()] and [type()] of the class. *)
Record t : Type := mk { value : jsval; type : Type_.t }.

Definition to_jsval (this : t) : jsval := JValue (value this) (type this).

(** [x instanceof Value], with the instance when it holds. *)
Definition instanceof (x : jsval) : option t :=
  match x with
  | JValue v ty => Some (mk v ty)
  | _ => None
  end.

(** [constructor(value)]: the branches are [typeof value === "number"],
    [typeof value === "string"], [Array.isArray(value)] and the rest. *)
Definition new (value : jsval) : completion t :=
  match value with
  | JNumber n =>
      ty <- Type_.new (if Number_isInteger n then "int" else "float") ;;
      Return (mk value ty)
  | JString _ =>
      ty <- Type_.new "str" ;; Return (mk value ty)
  | JArray items =>
      if existsb (fun item => negb (typeof item =? "string")) items
      then Throw (Error "Lists in pyson must contain only strings")
      else ty <- Type_.new "list" ;; Return (mk value ty)
  | _ => Throw (Error ("Invalid pyson type: " ++ typeof value))
  end.

(** [typeStr()] *)
Definition typeStr (this : t) : string := Type_.toString (type this).

(** [pysonStr()]: on an array the method [join] is looked up on the
    delimiter string and called; otherwise the template literal
    [`${this.type}:${this.value}`] is evaluated. *)
Definition pysonStr (this : t) : completion string :=
  if Array_isArray (value this)
  then Throw (TypeError (NotAFunction DELIM_join))
  else s <- ToString (value this) ;;
       Return (Type_.toString (type this) ++ ":" ++ s).

(** [toString()] *)
Definition toString (this : t) : completion string := pysonStr this.

(** [isInt()], [isFloat()], [isStr()], [isList()] *)
Definition isInt (this : t) : bool := Type_.type (type this) =? "int".
Definition isFloat (this : t) : bool := Type_.type (type this) =? "float".
Definition isStr (this : t) : bool := Type_.type (type this) =? "str".
Definition isList (this : t) : bool := Type_.type (type this) =? "list".
End Value.

(** [class NamedValue].  A method that assigns to [this] returns the object
    after the call next to its outcome; a method that throws before any
    assignment leaves the object as it was. *)
Module NamedValue.
(** The own properties [name] and [value]; they shadow the prototype
    methods [name()] and [value()]. *)
Record t : Type := mk { name : jsval; value : jsval }.

(** [constructor(name, value)] *)
Definition new (name value : jsval) : completion t :=
  if negb (typeof name =? "string") ||
     negb (match Value.instanceof value with Some _ => true | None => false end)
  then Throw (Error "Invalid arguments for NamedValue")
  else Return (mk name value).

(** The call [nv.name()]: the property found on the object is the own
    property holding the name, and no value of the model is callable. *)
Definition call_name (this : t) : completion jsval :=
  Throw (TypeError (NotAFunction "nv.name")).

(** [changeName(newName)] *)
Definition changeName (this : t) (newName : jsval) : completion unit * t :=
  (Return tt, mk newName (value this)).

(** [swapName(newName)] *)
Definition swapName (this : t) (newName : jsval) : completion jsval * t :=
  let oldName := name this in
  (Return oldName, mk newName (value this)).

(** [changeValue(newValue)] *)
Definition changeValue (this : t) (newValue : jsval) : completion unit * t :=
  match Value.instanceof newValue with
  | None => (Throw (Error "Invalid argument for changeValue"), this)
  | Some _ => (Return tt, mk (name this) newValue)
  end.

(** [swapValue(newValue)] *)
Definition swapValue (this : t) (newValue : jsval) : completion jsval * t :=
  let oldValue := value this in
  (Return oldValue, mk (name this) newValue).

(** [toTuple()] *)
Definition toTuple (this : t) : jsval * jsval := (name this, value this).

(** [pysonStr()]: the template literal [`${this.name}:${this.value}`]. *)
Definition pysonStr (this : t) : completion string :=
  n <- ToString (name this) ;;
  v <- ToString (value this) ;;
  Return (n ++ ":" ++ v).

(** [toString()] *)
Definition toString (this : t) : completion string := pysonStr this.
End NamedValue.


(** ** The entry parser *)

(** A target of the array destructuring [const [name, type, value] = ...]:
    the element at that index, or [undefined] past the end of the array. *)
Definition of_field (f : option string) : jsval :=
  match f with Some s => JString s | None => JUndefined end.

(** [x = rhs] where [x] was declared with [const]: the right-hand side has
    been evaluated, then writing the binding throws. *)
Definition assign_const (binding : string) (rhs : jsval) : completion jsval :=
  Throw (TypeError (AssignmentToConstant binding)).

(** [type === tag] in the [switch] of [parsePysonEntry]. *)
Definition is_case (type : option string) (tag : string) : bool :=
  match type with Some t => t =? tag | None => false end.

(** [parsePysonEntry(entry)] *)
Definition parsePysonEntry (entry : string) : completion NamedValue.t :=
  if includes entry LF
  then Throw (Error "Pyson entries cannot contain newlines")
  else
    let fields := split_limit entry ":" 2 in
    let name := nth_error fields 0 in
    let type := nth_error fields 1 in
    let value := nth_error fields 2 in
    value <-
      (if is_case type "int" then
         s <- ToString (of_field value) ;;
         assign_const "value" (JNumber (parseInt s 10))
       else if is_case type "float" then
         s <- ToString (of_field value) ;;
         assign_const "value" (JNumber (parseFloat s))
       else if is_case type "list" then
         match value with
         | None => Throw (TypeError (PropertyOfUndefined "split"))
         | Some s => assign_const "value" (JArray (map JString (split s DELIM)))
         end
       else
         t <- ToString (of_field type) ;;
         Throw (Error ("Invalid pyson type: " ++ t))) ;;
    v <- Value.new value ;;
    NamedValue.new (of_field name) (Value.to_jsval v).

(** ** The collection builder *)

(** [SameValueZero], the equality of [Set]; objects are equal to themselves
    only, and the model keeps no identities, so two objects count as
    different. *)
Definition same_value_zero (x y : jsval) : bool :=
  match x, y with
  | JUndefined, JUndefined | JNull, JNull => true
  | JBool a, JBool b => Bool.eqb a b
  | JString a, JString b => a =? b
  | JNumber (S754_zero _), JNumber (S754_zero _) => true
  | JNumber a, JNumber b => number_eqb a b
  | _, _ => false
  end.

(** [new Set(items).size] *)
Fixpoint Set_size (items : list jsval) : nat :=
  match items with
  | [] => 0
  | x :: items' =>
      (if existsb (same_value_zero x) items' then 0 else 1) + Set_size items'
  end.

(** [pysonToList(data)] *)
Definition pysonToList (data : string) : completion (list NamedValue.t) :=
  list <- mapM parsePysonEntry
            (filter (fun line => negb (line =? "")) (split data LF)) ;;
  names <- mapM NamedValue.call_name list ;;
  if negb (Set_size names =? List.length list)%nat
  then Throw (Error "Duplicate name(s) found in pysonToList")
  else Return list.

(** ** The validators *)

(** [isValidPysonEntry(entry)] *)
Definition isValidPysonEntry (entry : string) : bool :=
  match parsePysonEntry entry with
  | Return _ => true
  | Throw _ => false
  end.

(** [isValidPyson(data)] *)
Definition isValidPyson (data : string) : bool :=
  forallb (fun line => (line =? "") || isValidPysonEntry line) (split data LF).

(** ** The failures named by the specification

    The source tells its failures apart by message only.  Each kind of the
    specification's taxonomy is matched with the messages of the throw sites
    that realise it; no throw site of [index.js] realises [MalformedEntry]
    or [InvalidNumber], and an engine [TypeError] is none of the kinds. *)
Inductive ErrorKind : Type :=
| InvalidType
| UnsupportedValueType
| InvalidListElement
| InvalidArgument
| EmbeddedNewline
| MalformedEntry
| InvalidNumber
| DuplicateName
| FileNotFound.

Definition kinds_of (e : exn) : list ErrorKind :=
  match e with
  | Error msg =>
      if msg =? "Pyson entries cannot contain newlines" then [EmbeddedNewline]
      else if msg =? "Lists in pyson must contain only strings" then [InvalidListElement]
      else if (msg =? "Invalid arguments for NamedValue")
              || (msg =? "Invalid argument for changeValue") then [InvalidArgument]
      else if starts_with msg "Duplicate name(s) found in " then [DuplicateName]
      else if starts_with msg "File not found: " then [FileNotFound]
      else if starts_with msg "Invalid type: " then [InvalidType]
      else if starts_with msg "Invalid pyson type: " then [InvalidType; UnsupportedValueType]
      else []
  | TypeError _ => []
  end.

(** The call fails, and its failure is of the given kind. *)
Definition fails_with {A} (k : ErrorKind) (c : completion A) : Prop :=
  exists e, c = Throw e /\ In k (kinds_of e).

(** ** Vocabulary of the statements *)

(** The text a template literal gives a destructured field. *)
Definition tag_text (type : option string) : string :=
  match type with Some t => t | None => "undefined" end.

(** The number a decimal literal [m * 10^e] of a program denotes. *)
Definition lit (m : N) (e : Z) : number := number_of_decimal false m e.

(** [typeof x === "string"] *)
Definition is_string (x : jsval) : bool := typeof x =? "string".

(** The non-empty lines of a document, in order. *)
Definition entries (data : string) : list string :=
  filter (fun line => negb (line =? "")) (split data LF).

(** The constructor accepts [x] and gives the instance the tag [tag]. *)
Definition classified (x : jsval) (tag : string) : Prop :=
  Value.new x = Return (Value.mk x (Type_.mk tag)).

(** ** The dictionary builder *)

(** The call [nv.value()]: as for [nv.name()], the property found is the
    own property, here the stored value, which is not callable. *)
Definition call_value (this : NamedValue.t) : completion jsval :=
  Throw (TypeError (NotAFunction "nv.value")).

(** A plain object with string keys: its own properties in creation order.
    Defining a key again replaces the value where the key stands. *)
Definition object : Type := list (string * jsval).

Fixpoint Object_define (o : object) (key : string) (v : jsval) : object :=
  match o with
  | [] => [(key, v)]
  | (k, w) :: o' =>
      if k =? key then (k, v) :: o' else (k, w) :: Object_define o' key v
  end.

(** [Object.fromEntries(pairs)]: each key is converted to a property key,
    a string here, and defined on the object in turn. *)
Fixpoint Object_fromEntries_onto (o : object) (pairs : list (jsval * jsval))
  : completion object :=
  match pairs with
  | [] => Return o
  | (k, v) :: pairs' =>
      key <- ToString k ;;
      Object_fromEntries_onto (Object_define o key v) pairs'
  end.

Definition Object_fromEntries (pairs : list (jsval * jsval)) : completion object :=
  Object_fromEntries_onto [] pairs.

(** [Object.keys(o)]; only their number is used. *)
Definition Object_keys (o : object) : list string := map fst o.

(** [pysonToDict(data)] *)
Definition pysonToDict (data : string) : completion object :=
  list <- pysonToList data ;;
  pairs <- mapM (fun nv =>
                   n <- NamedValue.call_name nv ;;
                   v <- call_value nv ;;
                   Return (n, v)) list ;;
  asDict <- Object_fromEntries pairs ;;
  if negb (List.length (Object_keys asDict) =? List.length list)%nat
  then Throw (Error "Duplicate name(s) found in pysonToDict")
  else Return asDict.

(** ** Further vocabulary *)

(** The four tags a [Type] can hold. *)
Definition TAGS : list string := ["int"; "float"; "str"; "list"].

(** How many of [isInt()], [isFloat()], [isStr()], [isList()] hold. *)
Definition kinds_true (v : Value.t) : nat :=
  List.length (filter (fun b : bool => b)
    [Value.isInt v; Value.isFloat v; Value.isStr v; Value.isList v]).

(** The condition the constructor of [NamedValue] tests, on the properties
    an object holds now. *)
Definition well_formed (nv : NamedValue.t) : bool :=
  returns (NamedValue.new (NamedValue.name nv) (NamedValue.value nv)).

(** A document of [n] line feeds and nothing else. *)
Fixpoint blank (n : nat) : string :=
  match n with
  | O => EmptyString
  | S n' => LF ++ blank n'
  end.

(** * Properties *)

(** ** The monad and the string primitives *)

Lemma bind_Throw {A B} (e : exn) (k : A -> completion B) :
  bind (Throw e) k = Throw e.
Proof. reflexivity. Qed.

Lemma bind_Return {A B} (a : A) (k : A -> completion B) :
  bind (Return a) k = k a.
Proof. reflexivity. Qed.

Lemma mapM_throws_at_head {A B} (f : A -> completion B) (a : A) (l : list A) (e : exn) :
  f a = Throw e -> mapM f (a :: l) = Throw e.
Proof. intros H. simpl. now rewrite H. Qed.

(** A limit of two leaves nothing at index 2 of the array. *)
Lemma split_limit_two_third (s sep : string) :
  nth_error (split_limit s sep 2) 2 = None.
Proof.
  apply nth_error_None. unfold split_limit.
  apply firstn_le_length.
Qed.

(** Below the limit the fields are those of the unlimited split. *)
Lemma split_limit_nth (s sep : string) (limit i : nat) :
  i < limit -> nth_error (split_limit s sep limit) i = nth_error (split s sep) i.
Proof.
  unfold split_limit. generalize (split s sep) as l. revert i.
  induction limit as [|n IH]; intros i l Hi; [lia|].
  destruct l as [|x l]; [reflexivity|].
  destruct i as [|i]; [reflexivity|].
  simpl. apply IH. lia.
Qed.

(** ** [parsePysonEntry] by cases

    With the third field always [undefined] and [value] a constant binding,
    each arm of the [switch] ends in a throw. *)

Lemma parsePysonEntry_cases (entry : string) :
  parsePysonEntry entry =
    if includes entry LF
    then Throw (Error "Pyson entries cannot contain newlines")
    else
      let type := nth_error (split entry ":") 1 in
      if is_case type "int" || is_case type "float"
      then Throw (TypeError (AssignmentToConstant "value"))
      else if is_case type "list"
      then Throw (TypeError (PropertyOfUndefined "split"))
      else Throw (Error ("Invalid pyson type: " ++ tag_text type)).
Proof.
  unfold parsePysonEntry.
  destruct (includes entry LF); [reflexivity|].
  rewrite split_limit_two_third.
  rewrite (split_limit_nth entry ":" 2 1) by lia.
  cbv zeta.
  destruct (is_case _ "int"); [reflexivity|].
  destruct (is_case _ "float"); [reflexivity|].
  destruct (is_case _ "list"); [reflexivity|].
  destruct (nth_error (split entry ":") 1); reflexivity.
Qed.

(** The four ways a call of [parsePysonEntry] ends. *)
Ltac parse_cases entry :=
  rewrite (parsePysonEntry_cases entry); cbv zeta;
  destruct (includes entry LF);
    [|destruct (_ || _); [|destruct (is_case _ "list")]].

(** No call of [parsePysonEntry] returns. *)
Lemma parsePysonEntry_throws (entry : string) :
  exists e, parsePysonEntry entry = Throw e.
Proof. parse_cases entry; eauto. Qed.

Lemma isValidPysonEntry_false (entry : string) : isValidPysonEntry entry = false.
Proof.
  unfold isValidPysonEntry.
  destruct (parsePysonEntry_throws entry) as [e ->]. reflexivity.
Qed.

(** ** Construction of a [Value] *)

Lemma Type_new_tag (tag : string) :
  existsb (String.eqb tag) ["int"; "float"; "str"; "list"] = true ->
  Type_.new tag = Return (Type_.mk tag).
Proof. unfold Type_.new. now intros ->. Qed.

Lemma existsb_negb_forallb {A} (f : A -> bool) (l : list A) :
  existsb (fun a => negb (f a)) l = negb (forallb f l).
Proof.
  induction l as [|a l IH]; [reflexivity|].
  simpl. rewrite IH. now destruct (f a).
Qed.

Lemma all_strings (items : list string) :
  forallb is_string (map JString items) = true.
Proof. induction items as [|s items IH]; [reflexivity|exact IH]. Qed.

Lemma Value_new_number (n : number) :
  classified (JNumber n) (if Number_isInteger n then "int" else "float").
Proof.
  unfold classified. simpl.
  rewrite Type_new_tag by (destruct (Number_isInteger n); reflexivity).
  reflexivity.
Qed.

Lemma Value_new_array (items : list jsval) :
  Value.new (JArray items) =
    if forallb is_string items
    then Return (Value.mk (JArray items) (Type_.mk "list"))
    else Throw (Error "Lists in pyson must contain only strings").
Proof.
  unfold Value.new.
  change (fun item => negb (typeof item =? "string"))
    with (fun item => negb (is_string item)).
  rewrite existsb_negb_forallb.
  destruct (forallb is_string items); reflexivity.
Qed.

Lemma Value_new_strings (items : list string) :
  classified (JArray (map JString items)) "list".
Proof. unfold classified. rewrite Value_new_array, all_strings. reflexivity. Qed.

(** C8: Value construction classifies its payload by shape.  A number is
    [int] when [Number.isInteger] holds of it and [float] otherwise, so 5
    and 5.0 (the same number) yield [int] and 5.5 yields [float]; a string
    yields [str]; an array yields [list] when all its elements are strings,
    and the construction throws when one is not. *)
Theorem Value_new_classifies_by_shape :
  classified (JNumber (lit 5 0)) "int" /\
  classified (JNumber (lit 55 (-1))) "float" /\
  classified (JNumber (lit 50 (-1))) "int" /\
  classified (JString "x") "str" /\
  (forall n : number,
     classified (JNumber n) (if Number_isInteger n then "int" else "float")) /\
  (forall s : string, classified (JString s) "str") /\
  (forall items : list jsval,
     Value.new (JArray items) =
       if forallb is_string items
       then Return (Value.mk (JArray items) (Type_.mk "list"))
       else Throw (Error "Lists in pyson must contain only strings")) /\
  (forall items : list string, classified (JArray (map JString items)) "list") /\
  Value.new (JArray [JString "x"; JNumber (lit 5 0)]) =
    Throw (Error "Lists in pyson must contain only strings").
Proof.
  repeat split; try reflexivity.
  - exact Value_new_number.
  - exact Value_new_array.
  - exact Value_new_strings.
Qed.

(** C10: every number that [Number.isInteger] rejects, the non-finite NaN,
    Infinity and -Infinity among them, is accepted by the constructor and
    classified as [float]: [isFloat()] is true and the tag reads "float". *)
Theorem non_integer_number_is_float :
  (Number_isInteger NaN = false /\
   Number_isInteger Infinity = false /\
   Number_isInteger NegInfinity = false) /\
  forall n : number,
    Number_isInteger n = false ->
    exists v : Value.t,
      Value.new (JNumber n) = Return v /\
      Value.value v = JNumber n /\
      Value.isFloat v = true /\
      Value.typeStr v = "float" /\
      Value.isInt v = false.
Proof.
  split; [repeat split|].
  intros n Hn.
  exists (Value.mk (JNumber n) (Type_.mk "float")).
  simpl. rewrite Hn. repeat split.
Qed.

Lemma non_integer_number_is_float_at_NaN :
  Number_isInteger NaN = false /\
  exists v : Value.t,
    Value.new (JNumber NaN) = Return v /\
    Value.value v = JNumber NaN /\
    Value.isFloat v = true /\
    Value.typeStr v = "float" /\
    Value.isInt v = false.
Proof.
  split; [reflexivity|].
  apply (proj2 non_integer_number_is_float NaN). reflexivity.
Defined.

(** ** Encoding *)

(** The string conversion of an instance is its [pysonStr()]. *)
Lemma ToString_Value (v : Value.t) :
  ToString (Value.to_jsval v) = Value.toString v.
Proof. destruct v as [payload ty]. reflexivity. Qed.

(** C4: the bare encoding of a list-typed Value is claimed to be its
    elements joined with the delimiter.  In the code, [pysonStr()] on a list
    looks the method [join] up on the delimiter string and calls it; strings
    have no such method, so the call throws a TypeError for every list, the
    list x, y, z included, instead of returning the joined text. *)
Theorem list_pysonStr_throws :
  join DELIM ["x"; "y"; "z"] = "x(*)y(*)z" /\
  (v <- Value.new (JArray [JString "x"; JString "y"; JString "z"]) ;;
   Value.pysonStr v) = Throw (TypeError (NotAFunction DELIM_join)) /\
  (forall items : list string,
     (v <- Value.new (JArray (map JString items)) ;; Value.pysonStr v)
     = Throw (TypeError (NotAFunction DELIM_join))) /\
  (forall (items : list jsval) (ty : Type_.t),
     Value.pysonStr (Value.mk (JArray items) ty)
     = Throw (TypeError (NotAFunction DELIM_join))).
Proof.
  repeat split.
  intros items. rewrite (Value_new_strings items). reflexivity.
Qed.

(** ** Mutation of a [NamedValue] *)

(** C9: [swapValue] is claimed to validate its argument as [changeValue]
    does.  In the code it assigns whatever it is given: it never throws, and
    after [swapValue(42)] the object holds the number 42 where a Value
    instance was, while [changeValue(42)] on the same object throws and
    leaves it as it was.  With a Value instance both replace the stored
    value, and [swapValue] returns the previous one. *)
Theorem swapValue_skips_validation :
  let old := JValue (JNumber (lit 1 0)) (Type_.mk "int") in
  let nv := NamedValue.mk (JString "a") old in
  (v <- Value.new (JNumber (lit 1 0)) ;;
   NamedValue.new (JString "a") (Value.to_jsval v)) = Return nv /\
  Value.instanceof (JNumber (lit 42 0)) = None /\
  NamedValue.swapValue nv (JNumber (lit 42 0))
    = (Return old, NamedValue.mk (JString "a") (JNumber (lit 42 0))) /\
  NamedValue.changeValue nv (JNumber (lit 42 0))
    = (Throw (Error "Invalid argument for changeValue"), nv) /\
  kinds_of (Error "Invalid argument for changeValue") = [InvalidArgument] /\
  (forall (this : NamedValue.t) (newValue : jsval),
     NamedValue.swapValue this newValue
     = (Return (NamedValue.value this),
        NamedValue.mk (NamedValue.name this) newValue)).
Proof. repeat split. Qed.

(** ** Parsing an entry *)

(** C3: a line with the tag "str" is claimed to parse to a Str holding the
    raw text.  The [switch] of [parsePysonEntry] has no arm for "str": such a
    line reaches the default arm and the call throws
    "Invalid pyson type: str". *)
Theorem str_entry_throws (entry : string) :
  includes entry LF = false ->
  nth_error (split entry ":") 1 = Some "str" ->
  parsePysonEntry entry = Throw (Error "Invalid pyson type: str").
Proof.
  intros Hnl Htag.
  rewrite parsePysonEntry_cases, Hnl, Htag. reflexivity.
Qed.

Lemma str_entry_throws_at_hello :
  split "a:str:hello" ":" = ["a"; "str"; "hello"] /\
  parsePysonEntry "a:str:hello" = Throw (Error "Invalid pyson type: str").
Proof.
  split; [reflexivity|].
  apply (str_entry_throws "a:str:hello"); reflexivity.
Defined.

(** C1: the round trip [parse_entry(encode(nv)) = nv] is claimed for every
    valid NamedValue.  In the code the NamedValue named a that holds the
    string x encodes to the line a:str:x, and parsing that line throws; the
    one named n that holds 42 encodes to n:int:42, and parsing that throws
    as well.  No encoding parses back, since parsing never returns. *)
Theorem encoded_entry_does_not_parse :
  let nv := NamedValue.mk (JString "a") (JValue (JString "x") (Type_.mk "str")) in
  let nv' := NamedValue.mk (JString "n") (JValue (JNumber (lit 42 0)) (Type_.mk "int")) in
  (v <- Value.new (JString "x") ;;
   NamedValue.new (JString "a") (Value.to_jsval v)) = Return nv /\
  NamedValue.pysonStr nv = Return "a:str:x" /\
  parsePysonEntry "a:str:x" = Throw (Error "Invalid pyson type: str") /\
  (v <- Value.new (JNumber (lit 42 0)) ;;
   NamedValue.new (JString "n") (Value.to_jsval v)) = Return nv' /\
  NamedValue.pysonStr nv' = Return "n:int:42" /\
  parsePysonEntry "n:int:42" = Throw (TypeError (AssignmentToConstant "value")) /\
  (forall this : NamedValue.t,
     returns (line <- NamedValue.pysonStr this ;; parsePysonEntry line) = false).
Proof.
  repeat split.
  intros this.
  destruct (NamedValue.pysonStr this) as [line|e]; [|reflexivity].
  rewrite bind_Return.
  destruct (parsePysonEntry_throws line) as [e ->]. reflexivity.
Qed.

(** C2: the line is claimed to be split into three fields at its first two
    colons, the third keeping any further colon.  The code asks [split] for
    at most two entries and destructures three names from the result: the
    third, [value], is [undefined] for every line.  For a:str:x:y the fields
    are a and str; a:int:1 fails on the assignment to [value]; a line
    without a colon fails in the default arm of the [switch], under the
    message of an invalid type, there being no check of the field count. *)
Theorem split_limit_drops_value :
  split_limit "a:str:x:y" ":" 2 = ["a"; "str"] /\
  (forall entry : string, nth_error (split_limit entry ":" 2) 2 = None) /\
  (forall entry : string, List.length (split_limit entry ":" 2) <= 2) /\
  parsePysonEntry "a:str:x:y" = Throw (Error "Invalid pyson type: str") /\
  parsePysonEntry "a:int:1" = Throw (TypeError (AssignmentToConstant "value")) /\
  parsePysonEntry "noColonsHere" = Throw (Error "Invalid pyson type: undefined") /\
  kinds_of (Error "Invalid pyson type: undefined") = [InvalidType; UnsupportedValueType].
Proof.
  repeat split.
  - intros entry. apply split_limit_two_third.
  - intros entry. apply firstn_le_length.
Qed.

(** The failures of [parsePysonEntry], by the kinds they realise. *)
Lemma parsePysonEntry_kinds (entry : string) (e : exn) :
  parsePysonEntry entry = Throw e ->
  kinds_of e = [EmbeddedNewline] \/ kinds_of e = [] \/
  kinds_of e = [InvalidType; UnsupportedValueType].
Proof.
  parse_cases entry; intros [= <-]; auto.
Qed.

(** ** Documents *)

(** The lines [pysonToList] hands to [parsePysonEntry]. *)
Lemma pysonToList_no_entry (data : string) :
  entries data = [] -> pysonToList data = Return [].
Proof. unfold pysonToList, entries. now intros ->. Qed.

(** The first entry that fails to parse aborts the call with its failure. *)
Lemma pysonToList_first_entry (data line : string) (lines : list string) (e : exn) :
  entries data = line :: lines ->
  parsePysonEntry line = Throw e ->
  pysonToList data = Throw e.
Proof.
  unfold pysonToList, entries. intros -> He.
  now rewrite (mapM_throws_at_head _ _ _ _ He).
Qed.

(** C5: a document of two entries with different names is claimed to parse
    to those two entries, and one that repeats a name to fail with
    DuplicateName.  In the code both documents fail alike, on the first
    entry, with the TypeError of [parsePysonEntry]; [pysonToList] returns
    for no document with an entry in it (its only result is the empty
    list), and none of its failures is of the kind DuplicateName. *)
Theorem pysonToList_throws_on_entries :
  pysonToList ("a:int:1" ++ LF ++ "b:int:2")
    = Throw (TypeError (AssignmentToConstant "value")) /\
  pysonToList ("a:int:1" ++ LF ++ "a:int:2")
    = Throw (TypeError (AssignmentToConstant "value")) /\
  kinds_of (TypeError (AssignmentToConstant "value")) = [] /\
  (forall data : string,
     match pysonToList data with
     | Return list => list = []
     | Throw e => ~ In DuplicateName (kinds_of e)
     end).
Proof.
  repeat split.
  intros data.
  destruct (entries data) as [|line lines] eqn:Hlines.
  - now rewrite (pysonToList_no_entry data Hlines).
  - destruct (parsePysonEntry_throws line) as [e He].
    rewrite (pysonToList_first_entry data line lines e Hlines He).
    destruct (parsePysonEntry_kinds _ _ He) as [-> | [-> | ->]];
      simpl; intuition discriminate.
Qed.

(** ** Validation *)

(** [isValidPyson] is the line-by-line test, with no test of uniqueness. *)
Lemma isValidPyson_iff (data : string) :
  isValidPyson data = true <->
  forall line, In line (split data LF) ->
    line = "" \/ isValidPysonEntry line = true.
Proof.
  unfold isValidPyson. rewrite forallb_forall.
  split; intros H line Hin; specialize (H line Hin).
  - apply orb_true_iff in H. destruct H as [H|H]; [left|now right].
    now apply String.eqb_eq.
  - apply orb_true_iff. destruct H as [->|H]; [left|now right].
    apply String.eqb_refl.
Qed.

(** C6: [is_valid_document] is claimed to accept the two lines a:int:1 and
    a:int:2.  The code tests each line with [isValidPysonEntry], which is
    false of every line since [parsePysonEntry] never returns: the document
    is rejected, and the documents accepted are those whose lines are all
    empty. *)
Theorem isValidPyson_rejects_entries :
  isValidPyson ("a:int:1" ++ LF ++ "a:int:2") = false /\
  isValidPysonEntry "a:int:1" = false /\
  (forall data : string,
     isValidPyson data = forallb (fun line => line =? "") (split data LF)).
Proof.
  repeat split.
  intros data. unfold isValidPyson.
  induction (split data LF) as [|line lines IH]; [reflexivity|].
  simpl. now rewrite IH, isValidPysonEntry_false, orb_false_r.
Qed.

(** ** Numerals *)

(** The conversions the arms for "int" and "float" apply give NaN for a text
    that is not a numeral, [undefined] converted to text among them, and
    the constructor of [Value] takes every number. *)
Lemma numerals_are_not_validated :
  parseInt "notanumber" 10 = NaN /\
  parseFloat "notanumber" = NaN /\
  parseInt "undefined" 10 = NaN /\
  parseFloat "undefined" = NaN /\
  (forall n : number, returns (Value.new (JNumber n)) = true).
Proof.
  repeat split. intros n. now rewrite (Value_new_number n).
Qed.

(** C7: an entry tagged "int" or "float" whose text is not a numeral is
    claimed to fail with InvalidNumber.  In the code every entry with one of
    these tags fails the same way, whatever its text: the third field is
    [undefined], so the conversion is applied to [undefined] and not to the
    text, and the assignment of its result to the constant [value] throws
    a TypeError.  The line a:int:notanumber fails with the very failure of
    a:int:1 and a:float:1.5, which says nothing of a numeral. *)
Theorem numeric_entry_throws (entry tag : string) :
  includes entry LF = false ->
  nth_error (split entry ":") 1 = Some tag ->
  tag = "int" \/ tag = "float" ->
  parsePysonEntry entry = Throw (TypeError (AssignmentToConstant "value")) /\
  ToString (of_field (nth_error (split_limit entry ":" 2) 2)) = Return "undefined" /\
  parsePysonEntry "a:int:1" = parsePysonEntry entry /\
  parsePysonEntry "a:float:1.5" = parsePysonEntry entry.
Proof.
  intros Hnl Htag Hnum.
  assert (H : parsePysonEntry entry = Throw (TypeError (AssignmentToConstant "value"))).
  { rewrite parsePysonEntry_cases, Hnl, Htag.
    destruct Hnum as [-> | ->]; reflexivity. }
  rewrite H, split_limit_two_third. repeat split.
Qed.

Lemma numeric_entry_throws_at_notanumber :
  parsePysonEntry "a:int:notanumber"
    = Throw (TypeError (AssignmentToConstant "value")) /\
  ToString (of_field (nth_error (split_limit "a:int:notanumber" ":" 2) 2))
    = Return "undefined" /\
  parsePysonEntry "a:int:1" = parsePysonEntry "a:int:notanumber" /\
  parsePysonEntry "a:float:1.5" = parsePysonEntry "a:int:notanumber".
Proof.
  apply (numeric_entry_throws "a:int:notanumber" "int");
    [reflexivity | reflexivity | left; reflexivity].
Defined.

(** * Further properties of the code *)

(** ** Splitting on a separator of one code unit

    The colon and the line feed, the structural separators of the format,
    are one code unit long. *)
Section SingleUnitSeparator.
Variable c : ascii.
Let sep : string := String c EmptyString.

Lemma starts_with_unit (d : ascii) (s : string) :
  starts_with (String d s) sep = Ascii.eqb c d.
Proof. simpl. apply andb_true_r. Qed.

Lemma includes_unit_cons (d : ascii) (s : string) :
  includes (String d s) sep = Ascii.eqb c d || includes s sep.
Proof.
  change (includes (String d s) sep)
    with (starts_with (String d s) sep || includes s sep).
  now rewrite starts_with_unit.
Qed.

Lemma includes_unit_app (a b : string) :
  includes (a ++ b) sep = includes a sep || includes b sep.
Proof.
  induction a as [|d a IH].
  - simpl. reflexivity.
  - change (String d a ++ b) with (String d (a ++ b)).
    rewrite !includes_unit_cons, IH. apply orb_assoc.
Qed.

Lemma split_from_unit_cons (acc : string) (d : ascii) (s : string) :
  split_from sep 0 acc (String d s) =
    if Ascii.eqb c d
    then acc :: split_from sep 0 EmptyString s
    else split_from sep 0 (acc ++ String d EmptyString) s.
Proof.
  change (split_from sep 0 acc (String d s)) with
    (if starts_with (String d s) sep
     then acc :: split_from sep (String.length sep - 1) EmptyString s
     else split_from sep 0 (acc ++ String d EmptyString) s).
  now rewrite starts_with_unit.
Qed.

Lemma append_unit (acc : string) (d : ascii) (s : string) :
  (acc ++ String d EmptyString) ++ s = acc ++ String d s.
Proof. induction acc as [|x acc IH]; simpl; [reflexivity|now rewrite IH]. Qed.

Lemma append_empty (s : string) : s ++ EmptyString = s.
Proof. induction s as [|x s IH]; simpl; [reflexivity|now rewrite IH]. Qed.

(** A text without the separator is one piece. *)
Lemma split_from_no_separator (s acc : string) :
  includes s sep = false -> split_from sep 0 acc s = [acc ++ s].
Proof.
  revert acc. induction s as [|d s IH]; intros acc H.
  - simpl. now rewrite append_empty.
  - rewrite includes_unit_cons in H. apply orb_false_iff in H as [Hd Hs].
    rewrite split_from_unit_cons, Hd, (IH _ Hs), append_unit. reflexivity.
Qed.

(** Splitting distributes over a separator between two texts. *)
Lemma split_from_app (a b acc : string) :
  split_from sep 0 acc (a ++ sep ++ b) =
  (split_from sep 0 acc a ++ split_from sep 0 EmptyString b)%list.
Proof.
  revert acc. induction a as [|d a IH]; intros acc.
  - change (EmptyString ++ sep ++ b) with (String c b).
    rewrite split_from_unit_cons, Ascii.eqb_refl. reflexivity.
  - change (String d a ++ sep ++ b) with (String d (a ++ sep ++ b)).
    rewrite !split_from_unit_cons.
    destruct (Ascii.eqb c d); rewrite IH; reflexivity.
Qed.

Lemma split_app (a b : string) :
  split (a ++ sep ++ b) sep = (split a sep ++ split b sep)%list.
Proof. apply split_from_app. Qed.

Lemma split_from_nonempty (s acc : string) : split_from sep 0 acc s <> [].
Proof.
  revert acc. induction s as [|d s IH]; intros acc; [discriminate|].
  rewrite split_from_unit_cons. destruct (Ascii.eqb c d); [discriminate|apply IH].
Qed.

(** Joining the pieces with the separator gives the text back. *)
Lemma join_split_from (s acc : string) :
  join sep (split_from sep 0 acc s) = acc ++ s.
Proof.
  revert acc. induction s as [|d s IH]; intros acc.
  - simpl. now rewrite append_empty.
  - rewrite split_from_unit_cons.
    destruct (Ascii.eqb c d) eqn:Hd.
    + apply Ascii.eqb_eq in Hd. subst d.
      specialize (IH EmptyString).
      pose proof (split_from_nonempty s EmptyString) as Hne.
      destruct (split_from sep 0 EmptyString s) as [|x l]; [contradiction|].
      change (join sep (acc :: x :: l)) with (acc ++ sep ++ join sep (x :: l)).
      rewrite IH. reflexivity.
    + rewrite IH. apply append_unit.
Qed.

(** No piece contains the separator. *)
Lemma split_from_pieces (s acc x : string) :
  includes acc sep = false ->
  In x (split_from sep 0 acc s) -> includes x sep = false.
Proof.
  revert acc. induction s as [|d s IH]; intros acc Hacc Hin.
  - destruct Hin as [<-|[]]. exact Hacc.
  - rewrite split_from_unit_cons in Hin.
    destruct (Ascii.eqb c d) eqn:Hd.
    + destruct Hin as [<-|Hin]; [exact Hacc|].
      now apply (IH EmptyString).
    + apply (IH (acc ++ String d EmptyString)); [|exact Hin].
      rewrite includes_unit_app, Hacc, includes_unit_cons, Hd. reflexivity.
Qed.

End SingleUnitSeparator.

(** ** [Type] and [Value] *)

Lemma In_TAGS (tag : string) :
  existsb (String.eqb tag) TAGS = true <-> In tag TAGS.
Proof.
  rewrite existsb_exists. split.
  - intros (t & Hin & Heq). apply String.eqb_eq in Heq. now subst t.
  - intros Hin. exists tag. split; [exact Hin|apply String.eqb_refl].
Qed.

(** X1: the constructor of [Type] returns for the four tags, with an
    instance holding the tag, and for nothing else: any other tag throws
    "Invalid type: " followed by the tag.  [toString()] of an instance gives
    back the tag it was built from. *)
Theorem Type_new_iff (tag : string) :
  (In tag TAGS <-> Type_.new tag = Return (Type_.mk tag)) /\
  (~ In tag TAGS <-> Type_.new tag = Throw (Error ("Invalid type: " ++ tag))) /\
  (returns (Type_.new tag) = true <-> In tag TAGS) /\
  (forall ty, Type_.new tag = Return ty -> Type_.toString ty = tag).
Proof.
  pose proof (In_TAGS tag) as Htags.
  unfold Type_.new.
  change ["int"; "float"; "str"; "list"] with TAGS.
  destruct (existsb (String.eqb tag) TAGS); simpl.
  - assert (Hin : In tag TAGS) by now apply Htags.
    repeat split; auto; try discriminate; try contradiction.
    now intros ty [= <-].
  - assert (Hnot : ~ In tag TAGS) by (intros Hin; apply Htags in Hin; discriminate).
    repeat split; auto; try discriminate; try contradiction.
Qed.

Lemma strings_of_items (items : list jsval) :
  forallb is_string items = true -> exists ss, items = map JString ss.
Proof.
  induction items as [|x items IH]; intros H.
  - now exists [].
  - simpl in H. apply andb_true_iff in H as [Hx Hitems].
    destruct (IH Hitems) as [ss ->].
    destruct x; try discriminate Hx. now exists (s :: ss).
Qed.

(** X2: the constructor of [Value] returns exactly for a number, a string
    and an array whose elements are all strings. *)
Theorem Value_new_returns_iff (x : jsval) :
  returns (Value.new x) = true <->
  (exists n, x = JNumber n) \/ (exists s, x = JString s) \/
  (exists ss, x = JArray (map JString ss)).
Proof.
  split.
  - destruct x; try discriminate; intros H; eauto.
    right; right. rewrite Value_new_array in H.
    destruct (forallb is_string items) eqn:Hall; [|discriminate].
    destruct (strings_of_items _ Hall) as [ss ->]. eauto.
  - intros [[n ->]|[[s ->]|[ss ->]]].
    + now rewrite (Value_new_number n).
    + reflexivity.
    + now rewrite (Value_new_strings ss).
Qed.

(** X3: a payload that is not a number, not a string and not an array is
    refused, with the message "Invalid pyson type: " followed by its
    [typeof]: [undefined] as undefined, a boolean as boolean, and [null], a
    plain object and an instance of [Value] as object.  So a [Value] cannot
    hold another [Value]. *)
Theorem Value_new_refuses (x : jsval) :
  is_string x = false ->
  (typeof x =? "number") = false ->
  Array_isArray x = false ->
  Value.new x = Throw (Error ("Invalid pyson type: " ++ typeof x)) /\
  Value.new JUndefined = Throw (Error "Invalid pyson type: undefined") /\
  Value.new JNull = Throw (Error "Invalid pyson type: object") /\
  Value.new JObject = Throw (Error "Invalid pyson type: object") /\
  (forall b, Value.new (JBool b) = Throw (Error "Invalid pyson type: boolean")) /\
  (forall v, Value.new (Value.to_jsval v) = Throw (Error "Invalid pyson type: object")).
Proof.
  intros Hs Hn Ha. repeat split.
  destruct x; try discriminate; reflexivity.
Qed.

Lemma Value_new_refuses_a_Value :
  let x := Value.to_jsval (Value.mk (JString "x") (Type_.mk "str")) in
  Value.new x = Throw (Error ("Invalid pyson type: " ++ typeof x)) /\
  Value.new JUndefined = Throw (Error "Invalid pyson type: undefined") /\
  Value.new JNull = Throw (Error "Invalid pyson type: object") /\
  Value.new JObject = Throw (Error "Invalid pyson type: object") /\
  (forall b, Value.new (JBool b) = Throw (Error "Invalid pyson type: boolean")) /\
  (forall v, Value.new (Value.to_jsval v) = Throw (Error "Invalid pyson type: object")).
Proof.
  apply (Value_new_refuses (JValue (JString "x") (Type_.mk "str")));
    reflexivity.
Defined.

(** X4: what the constructor returns holds the payload it was given, under
    a tag that [Type] accepts; exactly one of [isInt()], [isFloat()],
    [isStr()], [isList()] is true of it, and which one follows the shape of
    the payload. *)
Theorem Value_new_invariant (x : jsval) (v : Value.t) :
  Value.new x = Return v ->
  Value.value v = x /\
  Type_.new (Value.typeStr v) = Return (Value.type v) /\
  kinds_true v = 1 /\
  Value.isList v = Array_isArray x /\
  Value.isStr v = is_string x /\
  Value.isInt v || Value.isFloat v = (typeof x =? "number").
Proof.
  destruct x; try discriminate.
  - rewrite (Value_new_number n). intros [= <-].
    destruct (Number_isInteger n); repeat split.
  - intros [= <-]. repeat split.
  - rewrite Value_new_array.
    destruct (forallb is_string items); [|discriminate].
    intros [= <-]. repeat split.
Qed.

Lemma Value_new_invariant_at_list :
  let x := JArray [JString "x"; JString "y"] in
  let v := Value.mk x (Type_.mk "list") in
  Value.value v = x /\
  Type_.new (Value.typeStr v) = Return (Value.type v) /\
  kinds_true v = 1 /\
  Value.isList v = Array_isArray x /\
  Value.isStr v = is_string x /\
  Value.isInt v || Value.isFloat v = (typeof x =? "number").
Proof.
  apply (Value_new_invariant (JArray [JString "x"; JString "y"])).
  reflexivity.
Defined.

Lemma Value_pysonStr_of_new (x : jsval) (v : Value.t) :
  Value.new x = Return v ->
  Value.pysonStr v =
    if Value.isList v
    then Throw (TypeError (NotAFunction DELIM_join))
    else text <- ToString x ;; Return (Value.typeStr v ++ ":" ++ text).
Proof.
  destruct x; try discriminate.
  - rewrite (Value_new_number n). intros [= <-].
    destruct (Number_isInteger n); reflexivity.
  - intros [= <-]. reflexivity.
  - rewrite Value_new_array.
    destruct (forallb is_string items); [|discriminate].
    intros [= <-]. reflexivity.
Qed.

Lemma ToString_scalar (x : jsval) (v : Value.t) :
  Value.new x = Return v -> Value.isList v = false ->
  exists text, ToString x = Return text.
Proof.
  destruct x; try discriminate.
  - intros _ _. simpl. eauto.
  - intros _ _. simpl. eauto.
  - rewrite Value_new_array.
    destruct (forallb is_string items); [|discriminate].
    intros [= <-]. discriminate.
Qed.

(** X5: [pysonStr()] of a constructed [Value] returns exactly when the
    value is not a list, and then gives the tag, a colon and the text of the
    payload; of a list it throws. *)
Theorem Value_pysonStr_returns (x : jsval) (v : Value.t) :
  Value.new x = Return v ->
  returns (Value.pysonStr v) = negb (Value.isList v) /\
  (Value.isList v = false ->
   exists text, ToString x = Return text /\
     Value.pysonStr v = Return (Value.typeStr v ++ ":" ++ text)).
Proof.
  intros Hnew. rewrite (Value_pysonStr_of_new x v Hnew).
  destruct (Value.isList v) eqn:Hlist.
  - split; [reflexivity|discriminate].
  - destruct (ToString_scalar x v Hnew Hlist) as [text Htext].
    rewrite Htext. split; [reflexivity|]. intros _. now exists text.
Qed.

Lemma Value_pysonStr_returns_at_str :
  let v := Value.mk (JString "hello") (Type_.mk "str") in
  returns (Value.pysonStr v) = negb (Value.isList v) /\
  (Value.isList v = false ->
   exists text, ToString (JString "hello") = Return text /\
     Value.pysonStr v = Return (Value.typeStr v ++ ":" ++ text)).
Proof.
  apply (Value_pysonStr_returns (JString "hello")). reflexivity.
Defined.

(** ** [NamedValue] *)

Lemma well_formed_eq (nv : NamedValue.t) :
  well_formed nv =
    is_string (NamedValue.name nv) &&
    match Value.instanceof (NamedValue.value nv) with
    | Some _ => true
    | None => false
    end.
Proof.
  unfold well_formed, NamedValue.new, is_string.
  destruct (typeof (NamedValue.name nv) =? "string");
    destruct (Value.instanceof (NamedValue.value nv)); reflexivity.
Qed.

(** X6: [changeValue] keeps an object such as the constructor builds:
    whatever the argument, the object after the call passes the test of the
    constructor; the call returns exactly when the argument is an instance
    of [Value], and when it throws the object is as it was. *)
Theorem changeValue_keeps_well_formed (this : NamedValue.t) (newValue : jsval) :
  well_formed this = true ->
  well_formed (snd (NamedValue.changeValue this newValue)) = true /\
  NamedValue.name (snd (NamedValue.changeValue this newValue))
    = NamedValue.name this /\
  (returns (fst (NamedValue.changeValue this newValue)) = true
   <-> exists v, newValue = Value.to_jsval v) /\
  (returns (fst (NamedValue.changeValue this newValue)) = false ->
   snd (NamedValue.changeValue this newValue) = this).
Proof.
  intros Hwf. unfold NamedValue.changeValue.
  destruct newValue; simpl;
    try (repeat split; auto; try discriminate; intros [[] [=]]).
  repeat split; try discriminate.
  - rewrite well_formed_eq in *. simpl.
    apply andb_true_iff in Hwf as [-> _]. reflexivity.
  - intros _. now exists (Value.mk newValue type).
Qed.

Lemma changeValue_keeps_well_formed_at_number :
  let this := NamedValue.mk (JString "a") (JValue (JString "x") (Type_.mk "str")) in
  let newValue := JNumber (lit 42 0) in
  well_formed (snd (NamedValue.changeValue this newValue)) = true /\
  NamedValue.name (snd (NamedValue.changeValue this newValue))
    = NamedValue.name this /\
  (returns (fst (NamedValue.changeValue this newValue)) = true
   <-> exists v, newValue = Value.to_jsval v) /\
  (returns (fst (NamedValue.changeValue this newValue)) = false ->
   snd (NamedValue.changeValue this newValue) = this).
Proof.
  apply (changeValue_keeps_well_formed
           (NamedValue.mk (JString "a") (JValue (JString "x") (Type_.mk "str")))
           (JNumber (lit 42 0))).
  reflexivity.
Defined.

(** X7: [changeName] and [swapName] take any new name without a test: they
    never throw, leave the value alone, and the object after the call passes
    the test of the constructor exactly when the new name is a string. *)
Theorem rename_is_unchecked (this : NamedValue.t) (newName : jsval) :
  well_formed this = true ->
  NamedValue.changeName this newName
    = (Return tt, NamedValue.mk newName (NamedValue.value this)) /\
  NamedValue.swapName this newName
    = (Return (NamedValue.name this), NamedValue.mk newName (NamedValue.value this)) /\
  well_formed (snd (NamedValue.changeName this newName)) = is_string newName /\
  well_formed (snd (NamedValue.swapName this newName)) = is_string newName.
Proof.
  intros Hwf. rewrite well_formed_eq in Hwf.
  apply andb_true_iff in Hwf as [_ Hv].
  repeat split; simpl; rewrite well_formed_eq; simpl;
    destruct (Value.instanceof (NamedValue.value this));
    try discriminate; apply andb_true_r.
Qed.

Lemma rename_is_unchecked_at_number :
  let this := NamedValue.mk (JString "a") (JValue (JString "x") (Type_.mk "str")) in
  let newName := JNumber (lit 7 0) in
  NamedValue.changeName this newName
    = (Return tt, NamedValue.mk newName (NamedValue.value this)) /\
  NamedValue.swapName this newName
    = (Return (NamedValue.name this), NamedValue.mk newName (NamedValue.value this)) /\
  well_formed (snd (NamedValue.changeName this newName)) = is_string newName /\
  well_formed (snd (NamedValue.swapName this newName)) = is_string newName.
Proof.
  apply (rename_is_unchecked
           (NamedValue.mk (JString "a") (JValue (JString "x") (Type_.mk "str")))
           (JNumber (lit 7 0))).
  reflexivity.
Defined.

(** X8: swapping twice undoes the swap.  [swapValue(x)] followed by
    [swapValue] of what it returned gives [x] back and leaves the object as
    it was at the start; so does [swapName]. *)
Theorem swap_twice_restores (this : NamedValue.t) (x : jsval) :
  (let '(_, after) := NamedValue.swapValue this x in
   NamedValue.swapValue after (NamedValue.value this)) = (Return x, this) /\
  (let '(_, after) := NamedValue.swapName this x in
   NamedValue.swapName after (NamedValue.name this)) = (Return x, this) /\
  fst (NamedValue.swapValue this x) = Return (NamedValue.value this) /\
  fst (NamedValue.swapName this x) = Return (NamedValue.name this).
Proof. destruct this as [n v]. repeat split. Qed.

Lemma line_of_Value (n : string) (v : Value.t) :
  (nv <- NamedValue.new (JString n) (Value.to_jsval v) ;; NamedValue.pysonStr nv)
  = (s <- Value.pysonStr v ;; Return (n ++ ":" ++ s)).
Proof.
  change (NamedValue.new (JString n) (Value.to_jsval v))
    with (Return (NamedValue.mk (JString n) (Value.to_jsval v))).
  rewrite bind_Return. unfold NamedValue.pysonStr.
  change (NamedValue.value (NamedValue.mk (JString n) (Value.to_jsval v)))
    with (Value.to_jsval v).
  rewrite ToString_Value. reflexivity.
Qed.

(** X9: the line of a [NamedValue] is its name, a colon and the text of its
    [Value]: building the object from a string name (the empty name is
    accepted) and an instance, then asking for [pysonStr()], gives that
    text when the instance encodes and fails as the instance does when it
    does not. *)
Theorem NamedValue_pysonStr_of_Value (n : string) (v : Value.t) :
  (nv <- NamedValue.new (JString n) (Value.to_jsval v) ;; NamedValue.pysonStr nv)
  = (s <- Value.pysonStr v ;; Return (n ++ ":" ++ s)) /\
  NamedValue.toTuple (NamedValue.mk (JString n) (Value.to_jsval v))
  = (JString n, Value.to_jsval v).
Proof.
  split; [apply line_of_Value|reflexivity].
Qed.

Lemma tag_has_no_colon (x : jsval) (v : Value.t) :
  Value.new x = Return v -> includes (Value.typeStr v) ":" = false.
Proof.
  destruct x; try discriminate.
  - rewrite (Value_new_number n). intros [= <-].
    destruct (Number_isInteger n); reflexivity.
  - intros [= <-]. reflexivity.
  - rewrite Value_new_array.
    destruct (forallb is_string items); [|discriminate].
    intros [= <-]. reflexivity.
Qed.

Lemma split_no_colon (s : string) :
  includes s ":" = false -> split s ":" = [s].
Proof. intros H. apply (split_from_no_separator ":"%char s EmptyString H). Qed.

Lemma split_line (n tag text : string) :
  includes n ":" = false -> includes tag ":" = false ->
  split (n ++ ":" ++ tag ++ ":" ++ text) ":" = n :: tag :: split text ":".
Proof.
  intros Hn Htag.
  rewrite (split_app ":"%char), (split_no_colon n Hn).
  rewrite (split_app ":"%char), (split_no_colon tag Htag).
  reflexivity.
Qed.

(** X10: when the name has no colon, the line of a [NamedValue] holding a
    number or a string splits at its colons into the name, the tag and the
    pieces of the payload's text, and joining the pieces after the second
    colon gives that text back. *)
Theorem encoded_line_fields (n : string) (x : jsval) (line : string) :
  includes n ":" = false ->
  (v <- Value.new x ;;
   nv <- NamedValue.new (JString n) (Value.to_jsval v) ;;
   NamedValue.pysonStr nv) = Return line ->
  exists (v : Value.t) (text : string),
    Value.new x = Return v /\
    ToString x = Return text /\
    line = n ++ ":" ++ Value.typeStr v ++ ":" ++ text /\
    split line ":" = n :: Value.typeStr v :: split text ":" /\
    join ":" (skipn 2 (split line ":")) = text.
Proof.
  intros Hn Hline.
  destruct (Value.new x) as [v|e] eqn:Hnew; [|discriminate].
  rewrite bind_Return, (line_of_Value n v) in Hline.
  rewrite (Value_pysonStr_of_new x v Hnew) in Hline.
  destruct (Value.isList v) eqn:Hlist; [discriminate|].
  destruct (ToString_scalar x v Hnew Hlist) as [text Htext].
  rewrite Htext in Hline. injection Hline as <-.
  exists v, text. repeat split.
  - exact Htext.
  - exact (split_line n _ text Hn (tag_has_no_colon x v Hnew)).
  - pose proof (split_line n _ text Hn (tag_has_no_colon x v Hnew)) as Hs.
    cbn [append] in Hs |- *. rewrite Hs.
    apply (join_split_from ":"%char text EmptyString).
Qed.

Lemma encoded_line_fields_at_url :
  exists (v : Value.t) (text : string),
    Value.new (JString "http://x") = Return v /\
    ToString (JString "http://x") = Return text /\
    "site:str:http://x" = "site" ++ ":" ++ Value.typeStr v ++ ":" ++ text /\
    split "site:str:http://x" ":" = "site" :: Value.typeStr v :: split text ":" /\
    join ":" (skipn 2 (split "site:str:http://x" ":")) = text.
Proof.
  apply (encoded_line_fields "site" (JString "http://x") "site:str:http://x");
    reflexivity.
Defined.

(** ** Entries and documents *)

(** X11: a line with neither a newline nor a colon, the empty line
    included, has no type field: [parsePysonEntry] throws
    "Invalid pyson type: undefined". *)
Theorem parse_without_colon (entry : string) :
  includes entry LF = false ->
  includes entry ":" = false ->
  parsePysonEntry entry = Throw (Error "Invalid pyson type: undefined").
Proof.
  intros Hnl Hcolon.
  rewrite parsePysonEntry_cases, Hnl, (split_no_colon entry Hcolon).
  reflexivity.
Qed.

Lemma parse_without_colon_at_word :
  parsePysonEntry "noColonsHere" = Throw (Error "Invalid pyson type: undefined").
Proof. apply (parse_without_colon "noColonsHere"); reflexivity. Defined.

Lemma entries_app (a b : string) :
  entries (a ++ LF ++ b) = (entries a ++ entries b)%list.
Proof.
  unfold entries, LF. rewrite (split_app "010"%char a b). apply filter_app.
Qed.

Lemma entries_blank (n : nat) : entries (blank n) = [].
Proof.
  induction n as [|n IH]; [reflexivity|].
  change (blank (S n)) with (EmptyString ++ LF ++ blank n).
  rewrite entries_app, IH. reflexivity.
Qed.

Lemma lines_have_no_LF (data line : string) :
  In line (split data LF) -> includes line LF = false.
Proof.
  intros Hin.
  apply (split_from_pieces "010"%char data EmptyString line); [reflexivity|exact Hin].
Qed.

Lemma forallb_empty_lines (l : list string) :
  forallb (fun line => line =? "") l = true <->
  filter (fun line => negb (line =? "")) l = [].
Proof.
  induction l as [|x l IH]; simpl; [tauto|].
  destruct (x =? ""); simpl; [exact IH|]. split; discriminate.
Qed.

Lemma isValidPyson_no_entry (data : string) :
  isValidPyson data = true <-> entries data = [].
Proof.
  unfold entries. rewrite <- forallb_empty_lines. unfold isValidPyson.
  induction (split data LF) as [|line lines IH]; [tauto|].
  simpl. rewrite isValidPysonEntry_false, orb_false_r.
  destruct (line =? ""); simpl; [exact IH|tauto].
Qed.

Lemma pysonToList_returns_no_entry (data : string) :
  returns (pysonToList data) = true <-> entries data = [].
Proof.
  destruct (entries data) as [|line lines] eqn:H.
  - rewrite (pysonToList_no_entry data H). tauto.
  - destruct (parsePysonEntry_throws line) as [e He].
    rewrite (pysonToList_first_entry data line lines e H He).
    split; discriminate.
Qed.

Lemma pysonToList_throws_iff (data : string) (e : exn) :
  pysonToList data = Throw e <->
  exists line lines, entries data = line :: lines /\ parsePysonEntry line = Throw e.
Proof.
  split.
  - intros H. destruct (entries data) as [|line lines] eqn:Hent.
    + rewrite (pysonToList_no_entry data Hent) in H. discriminate.
    + destruct (parsePysonEntry_throws line) as [e' He'].
      rewrite (pysonToList_first_entry data line lines e' Hent He') in H.
      injection H as <-. eauto.
  - intros (line & lines & Hent & He).
    exact (pysonToList_first_entry data line lines e Hent He).
Qed.

(** X12: a document with no line but empty ones (the empty text, or any
    number of line feeds) has no entry: [pysonToList] returns the empty
    list, [pysonToDict] the empty object, and [isValidPyson] is true. *)
Theorem blank_document (n : nat) :
  pysonToList (blank n) = Return [] /\
  pysonToDict (blank n) = Return [] /\
  isValidPyson (blank n) = true.
Proof.
  assert (H : pysonToList (blank n) = Return [])
    by exact (pysonToList_no_entry _ (entries_blank n)).
  repeat split.
  - exact H.
  - unfold pysonToDict. rewrite H. reflexivity.
  - apply isValidPyson_no_entry, entries_blank.
Qed.

(** X13: [pysonToList] fails exactly with the failure of
    [parsePysonEntry] on the first non-empty line of the document; the
    lines after it are not looked at. *)
Theorem pysonToList_fails_as_first_entry (data : string) (e : exn) :
  pysonToList data = Throw e <->
  exists line lines, entries data = line :: lines /\ parsePysonEntry line = Throw e.
Proof. apply pysonToList_throws_iff. Qed.

(** X14: the lines [pysonToList] parses come from splitting at the line
    feeds, so none contains one: a document never fails with the error of
    an entry that contains a newline. *)
Theorem pysonToList_never_newline_error (data : string) (e : exn) :
  pysonToList data = Throw e ->
  e <> Error "Pyson entries cannot contain newlines" /\
  ~ In EmbeddedNewline (kinds_of e).
Proof.
  intros H. apply pysonToList_throws_iff in H as (line & lines & Hent & He).
  assert (Hin : In line (split data LF)).
  { assert (Hl : In line (entries data)) by (rewrite Hent; now left).
    unfold entries in Hl. now apply filter_In in Hl as [Hl _]. }
  apply lines_have_no_LF in Hin.
  rewrite parsePysonEntry_cases, Hin in He. cbv zeta in He.
  destruct (_ || _); [injection He as <-; split; [discriminate|simpl; tauto]|].
  destruct (is_case _ "list");
    injection He as <-; (split; [discriminate|simpl; intuition discriminate]).
Qed.

Lemma pysonToList_never_newline_error_at_entry :
  TypeError (AssignmentToConstant "value")
    <> Error "Pyson entries cannot contain newlines" /\
  ~ In EmbeddedNewline (kinds_of (TypeError (AssignmentToConstant "value"))).
Proof.
  apply (pysonToList_never_newline_error ("a:int:1" ++ LF ++ "b:int:2")).
  reflexivity.
Defined.

(** X15: on this code the validator and the list builder agree:
    [isValidPyson(data)] is true exactly when [pysonToList(data)] returns,
    and both exactly when the document has no non-empty line. *)
Theorem isValidPyson_agrees_with_pysonToList (data : string) :
  isValidPyson data = returns (pysonToList data) /\
  (isValidPyson data = true <-> entries data = []).
Proof.
  split; [|apply isValidPyson_no_entry].
  destruct (isValidPyson data) eqn:Hv.
  - symmetry. apply pysonToList_returns_no_entry, isValidPyson_no_entry, Hv.
  - destruct (returns (pysonToList data)) eqn:Hr; [|reflexivity].
    apply pysonToList_returns_no_entry, isValidPyson_no_entry in Hr. congruence.
Qed.

(** X16: documents compose at a line feed.  The entries of [a], a line
    feed, [b] are those of [a] followed by those of [b]; the whole is valid
    exactly when both parts are; and a failure of [pysonToList] on [a] is
    its failure on the whole. *)
Theorem documents_compose (a b : string) :
  entries (a ++ LF ++ b) = (entries a ++ entries b)%list /\
  isValidPyson (a ++ LF ++ b) = isValidPyson a && isValidPyson b /\
  (forall e, pysonToList a = Throw e -> pysonToList (a ++ LF ++ b) = Throw e).
Proof.
  repeat split.
  - apply entries_app.
  - unfold isValidPyson, LF. rewrite (split_app "010"%char a b).
    apply forallb_app.
  - intros e H. apply pysonToList_throws_iff in H as (line & lines & Hent & He).
    apply pysonToList_throws_iff.
    exists line, (lines ++ entries b)%list. split; [|exact He].
    rewrite entries_app, Hent. reflexivity.
Qed.

